(** * Customer-Service-Analysis: the request pipeline of [backend/app.py]

    A shallow embedding of [validate_input], [preprocess_input] and
    [predict], and the properties of the validation and encoding pipeline.

    Python data is modelled as follows.
    - A JSON scalar is a [value]; a float is carried as an IEEE value
      ([spec_float]) that the pipeline never inspects.
    - A Python [dict] with string keys is an association list in insertion
      order ([dict]); [k in d] is [contains], [d[k]] is [get] and
      [d[k] = v] is [set], which overwrites in place or appends at the end.
    - The one-row [DataFrame] built from the record is the dict of its
      columns, each column holding the single cell of that row; [df.values],
      an array of shape (1, 11), is represented by its only row. The common
      dtype that numpy gives the array is not modelled: a cell of the row is
      the value the frame holds.
    - The artifacts are not part of the repository. An encoder's classes
      are strings, as the training data's categories are, and
      [LabelEncoder.transform] is scikit-learn's table lookup.
    - The module-level [label_encoders] is a store threaded through every
      call; an encoder's [classes_] attribute is absent until it is fitted.
    - An exception is a class and its [str]; code that can raise returns a
      [result]. Calls to the logger are not modelled. *)

From Stdlib Require Import String Ascii List ZArith Bool Lia Permutation.
From Stdlib Require Import Floats.SpecFloat.
Import ListNotations.
Open Scope string_scope.
Open Scope list_scope.

(** ** Python values and dictionaries *)

Inductive value : Type :=
| VNone
| VBool (b : bool)
| VInt (z : Z)
| VFloat (f : spec_float)
| VStr (s : string).

Definition dict (V : Type) : Type := list (string * V).

Fixpoint get {V : Type} (k : string) (d : dict V) : option V :=
  match d with
  | [] => None
  | (k', v) :: rest => if String.eqb k k' then Some v else get k rest
  end.

Definition contains {V : Type} (k : string) (d : dict V) : bool :=
  match get k d with
  | Some _ => true
  | None => false
  end.

Fixpoint set {V : Type} (k : string) (v : V) (d : dict V) : dict V :=
  match d with
  | [] => [(k, v)]
  | (k', v') :: rest =>
      if String.eqb k k' then (k, v) :: rest else (k', v') :: set k v rest
  end.

Definition keys {V : Type} (d : dict V) : list string := map fst d.

Fixpoint unique (l : list string) : bool :=
  match l with
  | [] => true
  | k :: rest => negb (existsb (String.eqb k) rest) && unique rest
  end.

(** ** The feature schema *)

Definition FEATURES : list string :=
  [ "channel_name"; "category"; "Sub-category"; "Item_price";
    "connected_handling_time"; "response_delay"; "survey_delay";
    "sentiment_score"; "Agent_name"; "Agent Shift"; "Tenure Bucket" ].

Definition numeric_features : list string :=
  [ "Item_price"; "connected_handling_time"; "response_delay";
    "survey_delay"; "sentiment_score" ].

(** ** [validate_input] *)

(** [isinstance(v, (int, float))]: [bool] is a subclass of [int]. *)
Definition isinstance_int_float (v : value) : bool :=
  match v with
  | VBool _ | VInt _ | VFloat _ => true
  | VNone | VStr _ => false
  end.

Definition missing_msg (feature : string) : string :=
  ("Missing required feature: " ++ feature)%string.

Definition numeric_msg (feature : string) : string :=
  ("Feature " ++ feature ++ " must be numeric")%string.

(** [feature in data and not isinstance(data[feature], (int, float))] *)
Definition not_numeric (data : dict value) (feature : string) : bool :=
  match get feature data with
  | Some v => negb (isinstance_int_float v)
  | None => false
  end.

Definition validate_input (data : dict value) : list string :=
  let errors := [] in
  let errors :=
    fold_left
      (fun errors feature =>
         if negb (contains feature data)
         then errors ++ [missing_msg feature]
         else errors)
      FEATURES errors in
  let errors :=
    fold_left
      (fun errors feature =>
         if not_numeric data feature
         then errors ++ [numeric_msg feature]
         else errors)
      numeric_features errors in
  errors.

(** ** Exceptions and the encoder store *)

Inductive exn_class : Type :=
| AttributeError | KeyError | ValueError | TypeError | OverflowError
| RuntimeError.

Record exn : Type := Exn { exn_type : exn_class; str : string }.

Inductive result (A : Type) : Type :=
| Ok (a : A)
| Raise (e : exn).
Arguments Ok {A} a.
Arguments Raise {A} e.

(** A scikit-learn [LabelEncoder]: [classes_] exists once the encoder has
    been fitted and then holds the known category strings in code order. *)
Record LabelEncoder : Type := { classes_ : option (list string) }.

Definition fitted (classes : list string) : LabelEncoder :=
  {| classes_ := Some classes |}.

Definition encoders : Type := dict LabelEncoder.

(** Code that reads or mutates [label_encoders] and may raise. The store is
    returned in both cases: a mutation made before an exception stays. *)
Definition M (A : Type) : Type := encoders -> result A * encoders.

Definition ret {A : Type} (a : A) : M A := fun enc => (Ok a, enc).

Definition raise {A : Type} (e : exn) : M A := fun enc => (Raise e, enc).

Definition bind {A B : Type} (m : M A) (k : A -> M B) : M B :=
  fun enc =>
    match m enc with
    | (Ok a, enc') => k a enc'
    | (Raise e, enc') => (Raise e, enc')
    end.

Definition lift {A : Type} (r : result A) : M A := fun enc => (r, enc).

Notation "x <- m ;; k" := (bind m (fun x => k))
  (at level 61, m at next level, right associativity).
Notation "m ;;; k" := (bind m (fun _ => k))
  (at level 61, right associativity).

Fixpoint for_each {A S : Type} (xs : list A) (body : A -> S -> M S) (s : S)
  : M S :=
  match xs with
  | [] => ret s
  | x :: rest => s' <- body x s ;; for_each rest body s'
  end.

(** [label_encoders[col].classes_] *)
Definition get_classes (col : string) : M (list string) :=
  fun enc =>
    match get col enc with
    | None => (Raise (Exn KeyError ("'" ++ col ++ "'")%string), enc)
    | Some le =>
        match classes_ le with
        | None =>
            (Raise (Exn AttributeError
                      "'LabelEncoder' object has no attribute 'classes_'"),
             enc)
        | Some classes => (Ok classes, enc)
        end
    end.

(** [label_encoders[col].classes_ = classes] *)
Definition set_classes (col : string) (classes : list string) : M unit :=
  fun enc => (Ok tt, set col (fitted classes) enc).

(** ** Library operations used by [preprocess_input] *)

Definition Unknown : string := "Unknown".

(** [x in le.classes_] on an array of strings: some element equals [x]. A
    value that is not a string equals none of them. *)
Definition in_classes (x : value) (classes : list string) : bool :=
  match x with
  | VStr s => existsb (String.eqb s) classes
  | _ => false
  end.

(** [lambda x: x if x in le.classes_ else 'Unknown']. The value kept is a
    member of the array, hence a string. *)
Definition or_unknown (classes : list string) (x : value) : string :=
  match x with
  | VStr s => if in_classes x classes then s else Unknown
  | _ => Unknown
  end.

Fixpoint enumerate_from (i : Z) (l : list string) : list (Z * string) :=
  match l with
  | [] => []
  | x :: rest => (i, x) :: enumerate_from (i + 1) rest
  end.

(** scikit-learn's [_map_to_integer]: the table
    [{val: i for i, val in enumerate(uniques)}]. *)
Definition table (uniques : list string) : dict Z :=
  fold_left (fun t iv => set (snd iv) (fst iv) t)
            (enumerate_from 0 uniques) [].

(** [LabelEncoder.transform] on the one-element column [y]: the label's
    position in the table, [ValueError] for a label that has none. *)
Definition transform (classes : list string) (y : string) : result Z :=
  match get y (table classes) with
  | Some code => Ok code
  | None =>
      Raise (Exn ValueError
               ("y contains previously unseen labels: '" ++ y ++ "'")%string)
  end.

(** ** [preprocess_input] *)

(** [pd.DataFrame([data])]: one row, one column per key of the record. *)
Definition DataFrame : Type := dict value.

Definition DataFrame_of_record (data : dict value) : DataFrame := data.

(** Body of the loop over [label_encoders]. The column is assigned twice in
    the source (relabelled, then encoded); the model keeps the relabelled
    cell in [y] and assigns the encoded one. *)
Definition encode_column (col : string) (df : DataFrame) : M DataFrame :=
  match get col df with
  | None => ret df
  | Some x =>
      classes <- get_classes col ;;
      let y := or_unknown classes x in
      (if negb (in_classes (VStr Unknown) classes)
       then set_classes col (classes ++ [Unknown])
       else ret tt) ;;;
      classes' <- get_classes col ;;
      code <- lift (transform classes' y) ;;
      ret (set col (VInt code) df)
  end.

Definition fill_missing (df : DataFrame) : DataFrame :=
  fold_left
    (fun df feature =>
       if negb (contains feature df) then set feature (VInt 0) df else df)
    FEATURES df.

(** [df[cols].values]: the row restricted to [cols], in that order;
    [KeyError] for a column the frame does not have. *)
Fixpoint select (cols : list string) (df : DataFrame)
  : result (list value) :=
  match cols with
  | [] => Ok []
  | c :: rest =>
      match get c df with
      | None => Raise (Exn KeyError ("['" ++ c ++ "'] not in index")%string)
      | Some v =>
          match select rest df with
          | Ok row => Ok (v :: row)
          | Raise e => Raise e
          end
      end
  end.

(** The [try] block of [preprocess_input]. *)
Definition preprocess_body (data : dict value) : M (list value) :=
  fun enc =>
    let df := DataFrame_of_record data in
    (df <- for_each (keys enc) encode_column df ;;
     let df := fill_missing df in
     lift (select FEATURES df)) enc.

(** [except Exception as e: raise ValueError(f"Preprocessing failed: ...")] *)
Definition preprocess_input (data : dict value) : M (list value) :=
  fun enc =>
    match preprocess_body data enc with
    | (Ok row, enc') => (Ok row, enc')
    | (Raise e, enc') =>
        (Raise (Exn ValueError ("Preprocessing failed: " ++ str e)%string),
         enc')
    end.

(** ** [predict] *)

(** The trained classifier: [predict(X)[0]] and [predict_proba(X)[0, 1]] on
    the one-row input; either call may raise. *)
Record Model : Type := {
  model_predict : list value -> result Z;
  model_predict_proba : list value -> result spec_float
}.

Record Request : Type := { is_json : bool; json : dict value }.

Inductive Body : Type :=
| ErrorBody (error : string)
| ValidationBody (error : string) (details : list string)
| PredictionBody (prediction : Z) (probability : spec_float)
                 (label : string) (timestamp : string).

Record Response : Type := { body : Body; status : Z }.

(** The [try] block of [predict]; [now] is [datetime.now().isoformat()]. *)
Definition predict_body (model : Model) (now : string) (request : Request)
  : M Response :=
  if negb (is_json request)
  then ret {| body := ErrorBody "Request must be JSON"; status := 400 |}
  else
    let input_data := json request in
    let validation_errors := validate_input input_data in
    match validation_errors with
    | _ :: _ =>
        ret {| body := ValidationBody "Validation failed" validation_errors;
               status := 400 |}
    | [] =>
        processed <- preprocess_input input_data ;;
        pred <- lift (model_predict model processed) ;;
        pred_prob <- lift (model_predict_proba model processed) ;;
        ret {| body :=
                 PredictionBody pred pred_prob
                   (if Z.eqb pred 1 then "High CSAT" else "Low CSAT") now;
               status := 200 |}
    end.

Definition predict (model : Model) (now : string) (request : Request)
  : encoders -> Response * encoders :=
  fun enc =>
    match predict_body model now request enc with
    | (Ok response, enc') => (response, enc')
    | (Raise e, enc') =>
        match exn_type e with
        | ValueError => ({| body := ErrorBody (str e); status := 400 |}, enc')
        | _ =>
            ({| body := ErrorBody "Internal server error"; status := 500 |},
             enc')
        end
    end.

(** ** Notions used to state the properties *)

(** The class array after [preprocess_input] has visited the encoder. *)
Definition with_unknown (classes : list string) : list string :=
  if in_classes (VStr Unknown) classes then classes
  else classes ++ [Unknown].

(** A store as loaded from the artifact: a dict (no key twice) of fitted
    encoders. *)
Definition is_fitted (le : LabelEncoder) : bool :=
  match classes_ le with
  | Some _ => true
  | None => false
  end.




(** The store the spec describes after a call: the encoders of the columns
    supplied in the record have the sentinel class, the others are as
    before. *)
Definition add_unknown (le : LabelEncoder) : LabelEncoder :=
  match classes_ le with
  | Some classes => fitted (with_unknown classes)
  | None => le
  end.

Definition touched (data : dict value) (enc : encoders) : encoders :=
  map (fun p =>
         (fst p, if contains (fst p) data then add_unknown (snd p) else snd p))
      enc.

(** ** Sample inputs *)

Definition sample_record : dict value :=
  [ ("channel_name", VStr "Inbound");
    ("category", VStr "Returns");
    ("Sub-category", VStr "Reverse Pickup Enquiry");
    ("Item_price", VInt 1299);
    ("connected_handling_time", VInt 310);
    ("response_delay", VFloat (S754_finite false 5629499534213120 (-51)));
    ("survey_delay", VInt 2);
    ("sentiment_score", VFloat (S754_finite false 4503599627370496 (-53)));
    ("Agent_name", VStr "Richard Buchanan");
    ("Agent Shift", VStr "Morning");
    ("Tenure Bucket", VStr "On Job Training") ].

Definition sample_encoders : encoders :=
  [ ("channel_name", fitted ["Email"; "Inbound"; "Outcall"]);
    ("category", fitted ["Order Related"; "Product Queries"; "Returns"]);
    ("Sub-category", fitted ["Delayed"; "Reverse Pickup Enquiry"]);
    ("Agent_name", fitted ["Richard Buchanan"; "Vicki Collins"]);
    ("Agent Shift", fitted ["Evening"; "Morning"; "Night"]);
    ("Tenure Bucket", fitted ["0-30"; ">90"; "On Job Training"]) ].


(** A record whose price is the float infinity, as the JSON number 1e999
    is read. *)
Definition infinite_price_record : dict value :=
  set "Item_price" (VFloat (S754_infinity false)) sample_record.


(** A store whose first encoder was never fitted. *)
Definition unfitted_store : encoders :=
  ("channel_name", {| classes_ := None |}) :: tl sample_encoders.

Definition is_nan (v : value) : bool :=
  match v with
  | VFloat S754_nan => true
  | _ => false
  end.

Definition is_infinite (v : value) : bool :=
  match v with
  | VFloat (S754_infinity _) => true
  | _ => false
  end.

(** A classifier that checks its input the way scikit-learn estimators do
    before predicting: a row with a non-finite cell is refused with
    [ValueError]. *)
Definition check_finite (row : list value) : result unit :=
  if existsb is_nan row then Raise (Exn ValueError "Input X contains NaN.")
  else if existsb is_infinite row
  then Raise (Exn ValueError
                "Input X contains infinity or a value too large for dtype('float64').")
  else Ok tt.

Definition sample_model : Model :=
  {| model_predict :=
       fun row =>
         match check_finite row with
         | Ok _ => Ok 1%Z
         | Raise e => Raise e
         end;
     model_predict_proba :=
       fun row =>
         match check_finite row with
         | Ok _ => Ok (S754_finite false 6755399441055744 (-53))
         | Raise e => Raise e
         end |}.

Definition sample_now : string := "2024-05-01T10:15:00.000000".

Definition request_of (data : dict value) : Request :=
  {| is_json := true; json := data |}.

(** ** Notions used for the further properties *)


(** Every encoder whose column the record carries is fitted. *)
Definition usable (data : dict value) (enc : encoders) : bool :=
  forallb (fun p => negb (contains (fst p) data) || is_fitted (snd p)) enc.

Definition is_prediction (b : Body) : bool :=
  match b with
  | PredictionBody _ _ _ _ => true
  | _ => false
  end.

(** A record whose price is the JSON null. *)
Definition null_price_record : dict value :=
  set "Item_price" VNone sample_record.


(** ** Dictionaries *)

Lemma get_set {V : Type} (k c : string) (v : V) (d : dict V) :
  get k (set c v d) = if String.eqb k c then Some v else get k d.
Proof.
  induction d as [|[k' v'] rest IH]; simpl.
  - reflexivity.
  - destruct (String.eqb c k') eqn:Ec; simpl.
    + apply String.eqb_eq in Ec; subst k'.
      destruct (String.eqb k c); reflexivity.
    + destruct (String.eqb k k') eqn:Ek.
      * apply String.eqb_eq in Ek; subst k'.
        rewrite String.eqb_sym, Ec. reflexivity.
      * exact IH.
Qed.

Lemma get_set_same {V : Type} (c : string) (v : V) (d : dict V) :
  get c (set c v d) = Some v.
Proof. rewrite get_set, String.eqb_refl. reflexivity. Qed.


Lemma keys_set_present {V : Type} (c : string) (v : V) (d : dict V) :
  get c d <> None -> keys (set c v d) = keys d.
Proof.
  induction d as [|[k' v'] rest IH]; simpl; intros Hin.
  - congruence.
  - destruct (String.eqb c k') eqn:Ec; simpl.
    + apply String.eqb_eq in Ec. subst. reflexivity.
    + f_equal. apply IH. exact Hin.
Qed.


Lemma existsb_eqb_In (k : string) (l : list string) :
  existsb (String.eqb k) l = true <-> In k l.
Proof.
  rewrite existsb_exists. split.
  - intros [x [Hin Heq]]. apply String.eqb_eq in Heq. subst. exact Hin.
  - intros Hin. exists k. split; [exact Hin | apply String.eqb_refl].
Qed.

Lemma unique_NoDup (l : list string) : unique l = true <-> NoDup l.
Proof.
  induction l as [|k rest IH]; simpl.
  - split; [constructor | reflexivity].
  - rewrite andb_true_iff, negb_true_iff, IH. split.
    + intros [Hn Hu]. constructor; [|exact Hu].
      rewrite <- existsb_eqb_In. congruence.
    + intros H. inversion H as [|? ? Hn Hu]; subst. split; [|exact Hu].
      destruct (existsb (String.eqb k) rest) eqn:E; [|reflexivity].
      apply existsb_eqb_In in E. contradiction.
Qed.

(** ** [validate_input] *)

Section Collect.
Variable test : string -> bool.
Variable msg : string -> string.

Lemma fold_collect (l : list string) (errors : list string) :
  fold_left
    (fun errors feature =>
       if test feature then errors ++ [msg feature] else errors)
    l errors
  = errors ++ map msg (filter test l).
Proof.
  revert errors. induction l as [|f rest IH]; intros errors; simpl.
  - rewrite app_nil_r. reflexivity.
  - rewrite IH. destruct (test f); simpl.
    + rewrite <- app_assoc. reflexivity.
    + reflexivity.
Qed.

Lemma collect_nil (l : list string) :
  map msg (filter test l) = [] <-> forall f, In f l -> test f = false.
Proof.
  induction l as [|f rest IH]; simpl.
  - split; [intros _ f [] | reflexivity].
  - destruct (test f) eqn:E; simpl.
    + split; [discriminate|].
      intros H. specialize (H f (or_introl eq_refl)). congruence.
    + rewrite IH. split.
      * intros H g [<- | Hin]; [exact E | apply H; exact Hin].
      * intros H g Hin. apply H. right. exact Hin.
Qed.
End Collect.

Lemma validate_input_eq (data : dict value) :
  validate_input data
  = map missing_msg (filter (fun f => negb (contains f data)) FEATURES)
    ++ map numeric_msg (filter (not_numeric data) numeric_features).
Proof.
  unfold validate_input.
  rewrite (fold_collect (fun f => negb (contains f data)) missing_msg).
  rewrite (fold_collect (not_numeric data) numeric_msg).
  reflexivity.
Qed.

Lemma missing_msg_inj (f g : string) : missing_msg f = missing_msg g -> f = g.
Proof. unfold missing_msg. simpl. intros H. inversion H. reflexivity. Qed.

Lemma missing_numeric_distinct (f g : string) :
  missing_msg f <> numeric_msg g.
Proof. unfold missing_msg, numeric_msg. simpl. discriminate. Qed.

Lemma length_append (s t : string) :
  String.length (s ++ t)%string = (String.length s + String.length t)%nat.
Proof. induction s as [|a s IH]; simpl; [reflexivity | rewrite IH; reflexivity]. Qed.

Lemma append_cancel_r (s1 s2 t : string) :
  (s1 ++ t = s2 ++ t)%string -> s1 = s2.
Proof.
  revert s2. induction s1 as [|a s1 IH]; intros [|b s2] H; simpl in H.
  - reflexivity.
  - exfalso. apply (f_equal String.length) in H. simpl in H.
    rewrite length_append in H. lia.
  - exfalso. apply (f_equal String.length) in H. simpl in H.
    rewrite length_append in H. lia.
  - inversion H. f_equal. apply IH. assumption.
Qed.

Lemma numeric_msg_inj (f g : string) : numeric_msg f = numeric_msg g -> f = g.
Proof.
  unfold numeric_msg. simpl. intros H. inversion H as [H'].
  apply append_cancel_r in H'. exact H'.
Qed.

Lemma FEATURES_NoDup : NoDup FEATURES.
Proof. apply unique_NoDup. reflexivity. Qed.

Lemma In_missing_part (data : dict value) (f : string) :
  In (missing_msg f)
     (map missing_msg (filter (fun f => negb (contains f data)) FEATURES))
  <-> In f FEATURES /\ contains f data = false.
Proof.
  rewrite in_map_iff. split.
  - intros [g [Heq Hin]]. apply missing_msg_inj in Heq. subst g.
    apply filter_In in Hin. rewrite negb_true_iff in Hin. exact Hin.
  - intros H. exists f. split; [reflexivity|].
    apply filter_In. rewrite negb_true_iff. exact H.
Qed.

Lemma In_numeric_part (data : dict value) (f : string) :
  In (numeric_msg f)
     (map numeric_msg (filter (not_numeric data) numeric_features))
  <-> In f numeric_features /\ not_numeric data f = true.
Proof.
  rewrite in_map_iff. split.
  - intros [g [Heq Hin]]. apply numeric_msg_inj in Heq. subst g.
    apply filter_In in Hin. exact Hin.
  - intros H. exists f. split; [reflexivity|].
    apply filter_In. exact H.
Qed.

Lemma In_missing_msg (data : dict value) (f : string) :
  In (missing_msg f) (validate_input data)
  <-> In f FEATURES /\ contains f data = false.
Proof.
  rewrite validate_input_eq, in_app_iff, In_missing_part. split.
  - intros [H | H]; [exact H|].
    apply in_map_iff in H. destruct H as [g [Heq _]].
    symmetry in Heq. apply missing_numeric_distinct in Heq. contradiction.
  - intros H. left. exact H.
Qed.

Lemma In_numeric_msg (data : dict value) (f : string) :
  In (numeric_msg f) (validate_input data)
  <-> In f numeric_features /\ not_numeric data f = true.
Proof.
  rewrite validate_input_eq, in_app_iff, In_numeric_part. split.
  - intros [H | H]; [|exact H].
    apply in_map_iff in H. destruct H as [g [Heq _]].
    apply missing_numeric_distinct in Heq. contradiction.
  - intros H. right. exact H.
Qed.

Lemma validate_input_nil (data : dict value) :
  validate_input data = []
  <-> (forall f, In f FEATURES -> contains f data = true)
      /\ (forall f, In f numeric_features -> not_numeric data f = false).
Proof.
  rewrite validate_input_eq. split.
  - intros H. apply app_eq_nil in H. destruct H as [H1 H2].
    rewrite collect_nil in H1, H2. split; [|exact H2].
    intros f Hin. specialize (H1 f Hin).
    rewrite negb_false_iff in H1. exact H1.
  - intros [H1 H2].
    assert (E1 : map missing_msg
                   (filter (fun f => negb (contains f data)) FEATURES) = []).
    { apply collect_nil. intros f Hin. rewrite (H1 f Hin). reflexivity. }
    assert (E2 : map numeric_msg
                   (filter (not_numeric data) numeric_features) = []).
    { apply collect_nil. exact H2. }
    rewrite E1, E2. reflexivity.
Qed.

Lemma count_missing_msg (data : dict value) (f : string) :
  In f FEATURES -> contains f data = false ->
  count_occ string_dec (validate_input data) (missing_msg f) = 1%nat.
Proof.
  intros Hin Habs. rewrite validate_input_eq, count_occ_app.
  assert (E2 : count_occ string_dec
                 (map numeric_msg
                    (filter (not_numeric data) numeric_features))
                 (missing_msg f) = 0%nat).
  { apply count_occ_not_In. intros H. apply in_map_iff in H.
    destruct H as [g [Heq _]]. symmetry in Heq.
    apply missing_numeric_distinct in Heq. contradiction. }
  rewrite E2, Nat.add_0_r.
  apply NoDup_count_occ'.
  - apply Finite.Injective_map_NoDup.
    + intros a b. apply missing_msg_inj.
    + apply NoDup_filter. apply FEATURES_NoDup.
  - apply In_missing_part. split; assumption.
Qed.

(** C1: [validate_input] reports a missing-feature message for a name
    exactly when the name is a feature of the schema that is not a key of
    the record, each such message occurs once, the result is the empty list
    exactly when every feature is present and no numeric feature holds a
    non-numeric value, and the result lists every failure: the messages for
    all missing features in schema order followed by the messages for all
    mistyped numeric features. *)
Theorem C1_validate_input_missing_exact (data : dict value) :
  (forall f, In (missing_msg f) (validate_input data)
             <-> In f FEATURES /\ contains f data = false)
  /\ (forall f, In f FEATURES -> contains f data = false ->
                count_occ string_dec (validate_input data) (missing_msg f)
                = 1%nat)
  /\ (validate_input data = []
      <-> (forall f, In f FEATURES -> contains f data = true)
          /\ (forall f, In f numeric_features ->
                        not_numeric data f = false))
  /\ validate_input data
     = map missing_msg (filter (fun f => negb (contains f data)) FEATURES)
       ++ map numeric_msg (filter (not_numeric data) numeric_features)
  /\ length FEATURES = 11%nat.
Proof.
  split; [|split; [|split; [|split]]].
  - intros f. apply In_missing_msg.
  - intros f. apply count_missing_msg.
  - apply validate_input_nil.
  - apply validate_input_eq.
  - reflexivity.
Qed.

Lemma numeric_features_incl (f : string) :
  In f numeric_features -> In f FEATURES.
Proof.
  unfold numeric_features, FEATURES. simpl.
  intros H. repeat (destruct H as [<- | H]; [tauto|]). contradiction.
Qed.

Lemma contains_false_get {V : Type} (k : string) (d : dict V) :
  contains k d = false <-> get k d = None.
Proof.
  unfold contains. destruct (get k d); split; congruence.
Qed.


(** C5: for a feature of the numeric subset, a string value is reported
    with the message 'Feature <name> must be numeric', an integer or a
    floating-point value is not, and an absent feature gets no numeric
    message, only the missing-feature one. *)
Theorem C5_numeric_type_check (data : dict value) (f : string)
  (Hf : In f numeric_features) :
  (forall s, get f data = Some (VStr s) ->
             In (numeric_msg f) (validate_input data))
  /\ (forall z, get f data = Some (VInt z) ->
                ~ In (numeric_msg f) (validate_input data))
  /\ (forall x, get f data = Some (VFloat x) ->
                ~ In (numeric_msg f) (validate_input data))
  /\ (get f data = None ->
      ~ In (numeric_msg f) (validate_input data)
      /\ In (missing_msg f) (validate_input data)).
Proof.
  repeat split.
  - intros s Hs. apply In_numeric_msg. split; [exact Hf|].
    unfold not_numeric. rewrite Hs. reflexivity.
  - intros z Hz Hin. apply In_numeric_msg in Hin. destruct Hin as [_ Hn].
    unfold not_numeric in Hn. rewrite Hz in Hn. discriminate.
  - intros x Hx Hin. apply In_numeric_msg in Hin. destruct Hin as [_ Hn].
    unfold not_numeric in Hn. rewrite Hx in Hn. discriminate.
  - intros Hin. apply In_numeric_msg in Hin. destruct Hin as [_ Hn].
    unfold not_numeric in Hn. rewrite H in Hn. discriminate.
  - apply In_missing_msg. split.
    + apply numeric_features_incl. exact Hf.
    + apply contains_false_get. exact H.
Qed.

Lemma C5_numeric_type_check_witness :
  In "Item_price" numeric_features
  /\ In (numeric_msg "Item_price")
        (validate_input (set "Item_price" (VStr "free") sample_record)).
Proof.
  assert (Hf : In "Item_price" numeric_features) by (simpl; tauto).
  split; [exact Hf|].
  apply (proj1 (C5_numeric_type_check
                  (set "Item_price" (VStr "free") sample_record)
                  "Item_price" Hf) "free").
  reflexivity.
Defined.

Lemma not_numeric_set (data : dict value) (f g : string) (v : value) :
  not_numeric (set f v data) g
  = if String.eqb g f then negb (isinstance_int_float v)
    else not_numeric data g.
Proof.
  unfold not_numeric. rewrite get_set.
  destruct (String.eqb g f); reflexivity.
Qed.

Lemma contains_set {V : Type} (k c : string) (v : V) (d : dict V) :
  contains k (set c v d) = String.eqb k c || contains k d.
Proof.
  unfold contains. rewrite get_set.
  destruct (String.eqb k c); reflexivity.
Qed.

(** C10: a boolean held by a feature of the numeric subset passes the
    type check: no 'must be numeric' message is emitted for it, and putting
    a boolean in a numeric feature of a record that validates gives a record
    that validates. *)
Theorem C10_boolean_passes_numeric_check (data : dict value) (f : string)
  (b : bool) (Hf : In f numeric_features) :
  (get f data = Some (VBool b) ->
   ~ In (numeric_msg f) (validate_input data))
  /\ (validate_input data = [] ->
      validate_input (set f (VBool b) data) = []).
Proof.
  split.
  - intros Hb Hin. apply In_numeric_msg in Hin. destruct Hin as [_ Hn].
    unfold not_numeric in Hn. rewrite Hb in Hn. discriminate.
  - intros Hv. apply validate_input_nil in Hv. destruct Hv as [H1 H2].
    apply validate_input_nil. split.
    + intros g Hg. rewrite contains_set, (H1 g Hg). apply orb_true_r.
    + intros g Hg. rewrite not_numeric_set.
      destruct (String.eqb g f); [reflexivity | apply H2; exact Hg].
Qed.

Lemma C10_boolean_passes_numeric_check_witness :
  In "Item_price" numeric_features
  /\ get "Item_price" (set "Item_price" (VBool true) sample_record)
     = Some (VBool true)
  /\ validate_input (set "Item_price" (VBool true) sample_record) = [].
Proof.
  assert (Hf : In "Item_price" numeric_features) by (simpl; tauto).
  split; [exact Hf|]. split; [reflexivity|].
  apply (proj2 (C10_boolean_passes_numeric_check
                  sample_record "Item_price" true Hf)).
  reflexivity.
Defined.

(** ** The encoder's code table *)








Lemma in_classes_str (s : string) (classes : list string) :
  in_classes (VStr s) classes = true <-> In s classes.
Proof. simpl. apply existsb_eqb_In. Qed.

Lemma with_unknown_has_unknown (classes : list string) :
  In Unknown (with_unknown classes).
Proof.
  unfold with_unknown.
  destruct (in_classes (VStr Unknown) classes) eqn:E.
  - apply in_classes_str. exact E.
  - apply in_or_app. right. left. reflexivity.
Qed.


Lemma with_unknown_idem (classes : list string) :
  with_unknown (with_unknown classes) = with_unknown classes.
Proof.
  unfold with_unknown at 1.
  destruct (in_classes (VStr Unknown) (with_unknown classes)) eqn:E.
  - reflexivity.
  - pose proof (with_unknown_has_unknown classes) as H.
    apply in_classes_str in H. congruence.
Qed.








(** ** More on dictionaries *)


Lemma get_In {V : Type} (k : string) (v : V) (d : dict V) :
  get k d = Some v -> In (k, v) d.
Proof.
  induction d as [|[k' v'] rest IH]; simpl.
  - discriminate.
  - destruct (String.eqb k k') eqn:Ek.
    + apply String.eqb_eq in Ek. intros H. left. congruence.
    + intros H. right. apply IH. exact H.
Qed.

Lemma In_get {V : Type} (k : string) (v : V) (d : dict V) :
  NoDup (keys d) -> In (k, v) d -> get k d = Some v.
Proof.
  induction d as [|[k' v'] rest IH]; simpl; intros Hnd Hin.
  - contradiction.
  - inversion Hnd as [|? ? Hn Hnd']; subst.
    destruct Hin as [Heq | Hin].
    + inversion Heq; subst. rewrite String.eqb_refl. reflexivity.
    + destruct (String.eqb k k') eqn:Ek.
      * apply String.eqb_eq in Ek. subst k'. exfalso. apply Hn.
        apply (in_map fst) in Hin. exact Hin.
      * apply IH; assumption.
Qed.



Lemma permutation_get {V : Type} (d1 d2 : dict V) :
  NoDup (keys d1) -> Permutation d1 d2 -> forall k, get k d1 = get k d2.
Proof.
  intros Hnd Hperm k.
  assert (Hnd2 : NoDup (keys d2)).
  { apply (Permutation_NoDup (l := keys d1)); [|exact Hnd].
    unfold keys. apply Permutation_map. exact Hperm. }
  destruct (get k d1) as [v1|] eqn:E1.
  - symmetry. apply In_get; [exact Hnd2|].
    apply (Permutation_in _ Hperm). apply get_In. exact E1.
  - destruct (get k d2) as [v2|] eqn:E2; [|reflexivity].
    apply get_In in E2. apply (Permutation_in _ (Permutation_sym Hperm)) in E2.
    apply In_get in E2; [|exact Hnd]. congruence.
Qed.

(** ** The store after a call *)

Lemma fitted_eta (le : LabelEncoder) (classes : list string) :
  classes_ le = Some classes -> le = fitted classes.
Proof. destruct le as [c]. simpl. intros ->. reflexivity. Qed.





Lemma add_unknown_fitted (classes : list string) :
  add_unknown (fitted classes) = fitted (with_unknown classes).
Proof. reflexivity. Qed.

Lemma add_unknown_idem (le : LabelEncoder) :
  add_unknown (add_unknown le) = add_unknown le.
Proof.
  destruct le as [[classes|]]; unfold add_unknown; simpl.
  - rewrite with_unknown_idem. reflexivity.
  - reflexivity.
Qed.



(** ** The encoding loop *)




Lemma for_each_cons {A S : Type} (x : A) (rest : list A)
  (body : A -> S -> M S) (s : S) (enc : encoders) :
  for_each (x :: rest) body s enc
  = match body x s enc with
    | (Ok s', enc') => for_each rest body s' enc'
    | (Raise e, enc') => (Raise e, enc')
    end.
Proof. reflexivity. Qed.


(** ** Filling, reordering and the whole of [preprocess_input] *)










(** ** Unseen categories *)



(** ** Order of the output *)







(** ** Repeated calls *)




(** ** Absent features *)



(** ** Failures *)

(** C7: when the body of [preprocess_input] raises an exception, of
    whatever class, [preprocess_input] raises one [ValueError] whose message
    is 'Preprocessing failed: ' followed by the message of that exception,
    so nothing else than this [ValueError] leaves the function; and
    [predict], on a JSON request whose record validates, answers the failure
    with status 400 and that message as the error. *)
Theorem C7_preprocessing_failure_wrapped
  (data : dict value) (enc enc' : encoders) (cause : exn)
  (Hfail : preprocess_body data enc = (Raise cause, enc')) :
  preprocess_input data enc
  = (Raise (Exn ValueError ("Preprocessing failed: " ++ str cause)%string),
     enc')
  /\ (forall e, fst (preprocess_input data enc) = Raise e ->
                exn_type e = ValueError
                /\ str e = ("Preprocessing failed: " ++ str cause)%string)
  /\ (forall model now request,
        is_json request = true -> json request = data ->
        validate_input data = [] ->
        predict model now request enc
        = ({| body :=
                ErrorBody ("Preprocessing failed: " ++ str cause)%string;
              status := 400 |},
           enc')).
Proof.
  assert (Hrun : preprocess_input data enc
                 = (Raise (Exn ValueError
                             ("Preprocessing failed: " ++ str cause)%string),
                    enc')).
  { unfold preprocess_input. rewrite Hfail. reflexivity. }
  split; [exact Hrun|]. split.
  - intros e He. rewrite Hrun in He. simpl in He.
    inversion He; subst. split; reflexivity.
  - intros model now request Hjson Hdata Hvalid.
    unfold predict, predict_body. rewrite Hjson, Hdata, Hvalid.
    cbn [negb]. cbv beta iota zeta.
    unfold bind. rewrite Hrun. reflexivity.
Qed.

Lemma C7_preprocessing_failure_wrapped_witness :
  predict sample_model sample_now (request_of sample_record) unfitted_store
  = ({| body :=
          ErrorBody
            "Preprocessing failed: 'LabelEncoder' object has no attribute 'classes_'";
        status := 400 |},
     unfitted_store).
Proof.
  apply (proj2 (proj2
           (C7_preprocessing_failure_wrapped
              sample_record unfitted_store unfitted_store
              (Exn AttributeError
                 "'LabelEncoder' object has no attribute 'classes_'")
              eq_refl))
           sample_model sample_now (request_of sample_record)).
  - reflexivity.
  - reflexivity.
  - reflexivity.
Defined.


Lemma predict_value_error
  (model : Model) (now : string) (request : Request) (enc enc' : encoders)
  (e : exn) :
  predict_body model now request enc = (Raise e, enc') ->
  exn_type e = ValueError ->
  predict model now request enc
  = ({| body := ErrorBody (str e); status := 400 |}, enc').
Proof.
  intros Hbody Hcls. unfold predict. rewrite Hbody, Hcls. reflexivity.
Qed.

(** C8: a request that passes validation and preprocessing and on which
    the classifier raises [ValueError] is answered with status 400 and the
    classifier's own message, not with status 500 and 'Internal server
    error'. *)
Theorem C8_model_value_error_answered_400 :
  validate_input infinite_price_record = []
  /\ (exists row,
        fst (preprocess_input infinite_price_record sample_encoders) = Ok row
        /\ model_predict sample_model row
           = Raise (Exn ValueError
                      "Input X contains infinity or a value too large for dtype('float64')."))
  /\ fst (predict sample_model sample_now (request_of infinite_price_record)
            sample_encoders)
     = {| body :=
            ErrorBody
              "Input X contains infinity or a value too large for dtype('float64').";
          status := 400 |}
  /\ fst (predict sample_model sample_now (request_of infinite_price_record)
            sample_encoders)
     <> {| body := ErrorBody "Internal server error"; status := 500 |}.
Proof.
  split; [reflexivity|]. split; [|split].
  - eexists. split; reflexivity.
  - reflexivity.
  - vm_compute. discriminate.
Qed.

(** ** Mutation of the encoders *)





(** ** Further properties of [validate_input] *)

Lemma FEATURES_split :
  FEATURES
  = ["channel_name"; "category"; "Sub-category"] ++ numeric_features
    ++ ["Agent_name"; "Agent Shift"; "Tenure Bucket"].
Proof. reflexivity. Qed.

Lemma filter_disjoint_length {A : Type} (p q : A -> bool) (l : list A) :
  (forall x, In x l -> p x = true -> q x = false) ->
  (length (filter p l) + length (filter q l) <= length l)%nat.
Proof.
  induction l as [|a l IH]; intros Hpq; simpl.
  - lia.
  - assert (IH' : (length (filter p l) + length (filter q l) <= length l)%nat).
    { apply IH. intros x Hx. apply Hpq. right. exact Hx. }
    specialize (Hpq a (or_introl eq_refl)).
    destruct (p a); destruct (q a); simpl.
    + specialize (Hpq eq_refl). discriminate.
    + lia.
    + lia.
    + lia.
Qed.

(** X1: [validate_input] never returns more than 11 messages: a feature is
    reported as missing or as not numeric, never both. *)
Theorem validate_input_at_most_11 (data : dict value) :
  (length (validate_input data) <= 11)%nat
  /\ forall f, ~ (In (missing_msg f) (validate_input data)
                  /\ In (numeric_msg f) (validate_input data)).
Proof.
  split.
  - rewrite validate_input_eq, length_app, !length_map, FEATURES_split.
    rewrite !filter_app, !length_app.
    pose proof (filter_length_le (fun f => negb (contains f data))
                  ["channel_name"; "category"; "Sub-category"]) as H1.
    pose proof (filter_length_le (fun f => negb (contains f data))
                  ["Agent_name"; "Agent Shift"; "Tenure Bucket"]) as H2.
    pose proof (filter_disjoint_length
                  (fun f => negb (contains f data)) (not_numeric data)
                  numeric_features) as H3.
    assert (H3' : (length (filter (fun f => negb (contains f data))
                             numeric_features)
                   + length (filter (not_numeric data) numeric_features)
                   <= length numeric_features)%nat).
    { apply H3. intros f _ Hf. apply negb_true_iff in Hf.
      apply contains_false_get in Hf. unfold not_numeric. rewrite Hf.
      reflexivity. }
    simpl length in *. lia.
  - intros f [Hm Hn]. apply In_missing_msg in Hm. apply In_numeric_msg in Hn.
    destruct Hm as [_ Hm]. destruct Hn as [_ Hn].
    apply contains_false_get in Hm. unfold not_numeric in Hn.
    rewrite Hm in Hn. discriminate.
Qed.

(** X2: a key that is not a feature of the schema has no effect on
    validation: setting it, to any value, leaves the messages as they are. *)
Theorem validate_input_ignores_other_keys
  (data : dict value) (k : string) (v : value)
  (Hk : ~ In k FEATURES) :
  validate_input (set k v data) = validate_input data.
Proof.
  rewrite !validate_input_eq. f_equal; f_equal; apply filter_ext_in.
  - intros f Hf. rewrite contains_set.
    assert (E : String.eqb f k = false).
    { apply String.eqb_neq. intros ->. contradiction. }
    rewrite E. reflexivity.
  - intros f Hf. rewrite not_numeric_set.
    assert (E : String.eqb f k = false).
    { apply String.eqb_neq. intros ->. apply Hk.
      apply numeric_features_incl. exact Hf. }
    rewrite E. reflexivity.
Qed.

Lemma validate_input_ignores_other_keys_witness :
  validate_input (set "comment" (VStr "call me back") sample_record)
  = validate_input sample_record.
Proof.
  apply (validate_input_ignores_other_keys
           sample_record "comment" (VStr "call me back")).
  unfold FEATURES. simpl. intros H.
  repeat (destruct H as [H | H]; [discriminate|]). contradiction.
Defined.

(** X3: the value of a feature outside the numeric subset is never
    inspected: once the feature is present, replacing its value by any
    value of any type leaves the messages as they are. *)
Theorem validate_input_ignores_categorical_values
  (data : dict value) (f : string) (v : value)
  (Hf : ~ In f numeric_features)
  (Hpresent : contains f data = true) :
  validate_input (set f v data) = validate_input data.
Proof.
  rewrite !validate_input_eq. f_equal; f_equal; apply filter_ext_in.
  - intros g _. rewrite contains_set.
    destruct (String.eqb g f) eqn:E; [|reflexivity].
    apply String.eqb_eq in E. subst g. rewrite Hpresent. reflexivity.
  - intros g Hg. rewrite not_numeric_set.
    assert (E : String.eqb g f = false).
    { apply String.eqb_neq. intros ->. contradiction. }
    rewrite E. reflexivity.
Qed.

Lemma validate_input_ignores_categorical_values_witness :
  validate_input (set "channel_name" (VInt 7) sample_record)
  = validate_input sample_record.
Proof.
  apply (validate_input_ignores_categorical_values
           sample_record "channel_name" (VInt 7)).
  - unfold numeric_features. simpl. intros H.
    repeat (destruct H as [H | H]; [discriminate|]). contradiction.
  - reflexivity.
Defined.

(** X4: a numeric feature that is present with the value null counts as
    present and mistyped: it gets the 'must be numeric' message and no
    missing-feature message. *)
Theorem validate_input_null_is_not_numeric
  (data : dict value) (f : string)
  (Hf : In f numeric_features)
  (Hnull : get f data = Some VNone) :
  In (numeric_msg f) (validate_input data)
  /\ ~ In (missing_msg f) (validate_input data).
Proof.
  split.
  - apply In_numeric_msg. split; [exact Hf|].
    unfold not_numeric. rewrite Hnull. reflexivity.
  - intros H. apply In_missing_msg in H. destruct H as [_ H].
    apply contains_false_get in H. congruence.
Qed.

Lemma validate_input_null_is_not_numeric_witness :
  In (numeric_msg "Item_price") (validate_input null_price_record)
  /\ ~ In (missing_msg "Item_price") (validate_input null_price_record).
Proof.
  apply (validate_input_null_is_not_numeric null_price_record "Item_price").
  - simpl. tauto.
  - reflexivity.
Defined.

(** X5: the messages do not depend on the order in which the record lists
    its keys. *)
Theorem validate_input_key_order
  (d1 d2 : dict value)
  (Hkeys : NoDup (keys d1))
  (Hperm : Permutation d1 d2) :
  validate_input d1 = validate_input d2.
Proof.
  pose proof (permutation_get d1 d2 Hkeys Hperm) as Hget.
  rewrite !validate_input_eq. f_equal; f_equal; apply filter_ext.
  - intros f. unfold contains. rewrite (Hget f). reflexivity.
  - intros f. unfold not_numeric. rewrite (Hget f). reflexivity.
Qed.

Lemma validate_input_key_order_witness :
  validate_input null_price_record = validate_input (rev null_price_record).
Proof.
  apply (validate_input_key_order null_price_record (rev null_price_record)).
  - apply unique_NoDup. reflexivity.
  - apply Permutation_rev.
Defined.

(** ** Further properties of the encoded row *)











(** ** Sequences of calls *)











(** ** What a call can do to the store, whatever its outcome *)

Lemma encode_column_store (c : string) (df : DataFrame) (enc enc' : encoders)
  (r : result DataFrame) :
  encode_column c df enc = (r, enc') ->
  enc' = enc
  \/ exists classes,
       get c enc = Some (fitted classes)
       /\ in_classes (VStr Unknown) classes = false
       /\ enc' = set c (fitted (classes ++ [Unknown])) enc.
Proof.
  unfold encode_column. destruct (get c df) as [x|].
  - unfold bind, get_classes, set_classes, ret, lift.
    destruct (get c enc) as [le|] eqn:Ele.
    + destruct (classes_ le) as [classes|] eqn:Ecl.
      * destruct (in_classes (VStr Unknown) classes) eqn:EU;
          cbn [negb]; cbv beta iota.
        -- rewrite Ele, Ecl.
           destruct (transform classes (or_unknown classes x));
             intros H; inversion H; left; reflexivity.
        -- rewrite get_set_same. simpl classes_. cbv beta iota.
           destruct (transform (classes ++ [Unknown]) (or_unknown classes x));
             intros H; inversion H; right; exists classes;
             (split; [f_equal; apply fitted_eta; exact Ecl
                     | split; [exact EU | reflexivity]]).
      * intros H. inversion H. left. reflexivity.
    + intros H. inversion H. left. reflexivity.
  - unfold ret. intros H. inversion H. left. reflexivity.
Qed.

Lemma encode_column_grows (c : string) (df : DataFrame) (enc enc' : encoders)
  (r : result DataFrame) :
  encode_column c df enc = (r, enc') ->
  keys enc' = keys enc
  /\ forall k, get k enc' = get k enc
               \/ get k enc' = option_map add_unknown (get k enc).
Proof.
  intros H. apply encode_column_store in H.
  destruct H as [-> | [classes [Hle [HU ->]]]].
  - split; [reflexivity|]. intros k. left. reflexivity.
  - split.
    + apply keys_set_present. congruence.
    + intros k. rewrite get_set. destruct (String.eqb k c) eqn:E.
      * apply String.eqb_eq in E. subst k. right. rewrite Hle.
        unfold option_map. rewrite add_unknown_fitted.
        unfold with_unknown. rewrite HU. reflexivity.
      * left. reflexivity.
Qed.

Lemma encode_columns_grow (cols : list string) :
  forall (df : DataFrame) (enc enc' : encoders) (r : result DataFrame),
    for_each cols encode_column df enc = (r, enc') ->
    keys enc' = keys enc
    /\ forall k, get k enc' = get k enc
                 \/ get k enc' = option_map add_unknown (get k enc).
Proof.
  induction cols as [|c rest IH]; intros df enc enc' r.
  - simpl. unfold ret. intros H. inversion H.
    split; [reflexivity|]. intros k. left. reflexivity.
  - rewrite for_each_cons.
    destruct (encode_column c df enc) as [[df1|e] enc1] eqn:Hstep.
    + intros Hrest. apply encode_column_grows in Hstep.
      apply IH in Hrest. destruct Hstep as [Hk1 Hg1].
      destruct Hrest as [Hk2 Hg2]. split; [congruence|].
      intros k. destruct (Hg2 k) as [H2 | H2]; destruct (Hg1 k) as [H1 | H1];
        rewrite H2, H1.
      * left. reflexivity.
      * right. reflexivity.
      * right. reflexivity.
      * right. destruct (get k enc) as [le|]; [|reflexivity].
        simpl. rewrite add_unknown_idem. reflexivity.
    + intros H. inversion H; subst.
      apply encode_column_grows in Hstep. exact Hstep.
Qed.

Lemma preprocess_input_store_from_loop (data : dict value) (enc : encoders) :
  snd (preprocess_input data enc)
  = snd (for_each (keys enc) encode_column (DataFrame_of_record data) enc).
Proof.
  unfold preprocess_input, preprocess_body, bind, lift.
  destruct (for_each (keys enc) encode_column (DataFrame_of_record data) enc)
    as [[df|e] enc'].
  - destruct (select FEATURES (fill_missing df)); reflexivity.
  - reflexivity.
Qed.

(** X12: whatever the store holds and whether the call returns a row or
    raises, [preprocess_input] keeps the columns of the store and their
    order, and leaves every encoder either as it was or, when it had classes
    without 'Unknown', with 'Unknown' appended to them. *)
Theorem store_only_gains_unknown (data : dict value) (enc : encoders) :
  keys (snd (preprocess_input data enc)) = keys enc
  /\ forall col,
       match get col enc with
       | None => get col (snd (preprocess_input data enc)) = None
       | Some le =>
           get col (snd (preprocess_input data enc)) = Some le
           \/ exists classes,
                classes_ le = Some classes
                /\ in_classes (VStr Unknown) classes = false
                /\ get col (snd (preprocess_input data enc))
                   = Some (fitted (classes ++ [Unknown]))
       end.
Proof.
  rewrite preprocess_input_store_from_loop.
  destruct (for_each (keys enc) encode_column (DataFrame_of_record data) enc)
    as [r enc'] eqn:Hloop.
  apply encode_columns_grow in Hloop. destruct Hloop as [Hkeys Hget].
  simpl snd. split; [exact Hkeys|].
  intros col. destruct (Hget col) as [H | H]; rewrite H.
  - destruct (get col enc); [left|]; reflexivity.
  - destruct (get col enc) as [le|]; [|reflexivity]. simpl.
    unfold add_unknown. destruct (classes_ le) as [classes|] eqn:E.
    + unfold with_unknown.
      destruct (in_classes (VStr Unknown) classes) eqn:EU.
      * left. f_equal. symmetry. apply fitted_eta. exact E.
      * right. exists classes. split; [reflexivity|].
        split; [exact EU | reflexivity].
    + left. reflexivity.
Qed.

(** ** When a call returns and when it raises *)








Lemma usable_app (data : dict value) (e1 e2 : encoders) :
  usable data (e1 ++ e2) = usable data e1 && usable data e2.
Proof. unfold usable. apply forallb_app. Qed.

Lemma touched_app (data : dict value) (e1 e2 : encoders) :
  touched data (e1 ++ e2) = touched data e1 ++ touched data e2.
Proof. unfold touched. apply map_app. Qed.







(** ** Further properties of [predict] *)

(** X15: a request that is not JSON, or whose record does not validate, is
    answered with status 400 before anything else happens: the encoders are
    not touched and the answer depends neither on the classifier nor on the
    clock. A request that is not JSON gets 'Request must be JSON' whatever
    its record; a JSON request gets 'Validation failed' with every message
    of [validate_input] as details. *)
Theorem rejected_request_touches_nothing
  (model : Model) (now : string) (request : Request) (enc : encoders)
  (Hrejected : is_json request = false
               \/ validate_input (json request) <> []) :
  status (fst (predict model now request enc)) = 400%Z
  /\ snd (predict model now request enc) = enc
  /\ (forall model' now',
        predict model' now' request enc = predict model now request enc)
  /\ (is_json request = false ->
      body (fst (predict model now request enc))
      = ErrorBody "Request must be JSON")
  /\ (is_json request = true ->
      body (fst (predict model now request enc))
      = ValidationBody "Validation failed" (validate_input (json request))).
Proof.
  unfold predict, predict_body.
  destruct (is_json request) eqn:Hj; cbn [negb]; cbv iota.
  - destruct Hrejected as [H | H]; [discriminate|].
    destruct (validate_input (json request)) as [|m rest] eqn:Hv;
      [congruence|].
    unfold ret. simpl. repeat split; try reflexivity. discriminate.
  - unfold ret. simpl. repeat split; try reflexivity. discriminate.
Qed.

Lemma rejected_request_touches_nothing_witness :
  status (fst (predict sample_model sample_now
                 (request_of null_price_record) sample_encoders)) = 400%Z
  /\ snd (predict sample_model sample_now
            (request_of null_price_record) sample_encoders)
     = sample_encoders.
Proof.
  assert (H : validate_input (json (request_of null_price_record)) <> [])
    by (vm_compute; discriminate).
  destruct (rejected_request_touches_nothing
              sample_model sample_now (request_of null_price_record)
              sample_encoders (or_intror H)) as [Hstatus [Hstore _]].
  split; [exact Hstatus | exact Hstore].
Defined.





(** X18: whatever the request, the classifier and the store, [predict]
    answers with status 200 and a prediction, or with status 400 and an
    error, or with status 500 and exactly 'Internal server error'. *)
Theorem predict_status_and_body
  (model : Model) (now : string) (request : Request) (enc : encoders) :
  (status (fst (predict model now request enc)) = 200%Z
   /\ is_prediction (body (fst (predict model now request enc))) = true)
  \/ (status (fst (predict model now request enc)) = 400%Z
      /\ is_prediction (body (fst (predict model now request enc))) = false)
  \/ (status (fst (predict model now request enc)) = 500%Z
      /\ body (fst (predict model now request enc))
         = ErrorBody "Internal server error").
Proof.
  unfold predict, predict_body.
  destruct (is_json request); cbn [negb]; cbv iota.
  - destruct (validate_input (json request)) as [|m rest].
    + unfold bind, lift, ret.
      destruct (preprocess_input (json request) enc) as [[row|e] enc1].
      * destruct (model_predict model row) as [pred|e].
        -- destruct (model_predict_proba model row) as [prob|e].
           ++ left. split; reflexivity.
           ++ destruct (exn_type e); simpl; auto.
        -- destruct (exn_type e); simpl; auto.
      * destruct (exn_type e); simpl; auto.
    + right. left. split; reflexivity.
  - right. left. split; reflexivity.
Qed.
